(** * dismiss-all-approvals: a shallow embedding of [src/main.ts]

    The action reads its inputs, pages through the reviews of the pull
    request that triggered it, keeps the approvals, drops those made on
    excluded commits and dismisses the rest (or, in dry-run mode, posts one
    comment).  Every function of [main.ts] is embedded under its own name.

    Conventions of the embedding:
    - JavaScript strings are [string]s (sequences of 8-bit characters); the
      methods [includes], [trim] and [split] are written out below;
    - JavaScript numbers that hold identifiers are [Z]; the page counter and
      array lengths are [nat];
    - a rejected promise or a [throw] is the [Throw] case of [Res];
    - the REST calls that leave the process are recorded, in the order in
      which they are issued, in a list of [Call]s;
    - the [for (;;)] loop of the collector is unbounded, so the collector
      takes a fuel argument and answers [None] when the fuel runs out. *)

From Stdlib Require Import String Ascii List ZArith Lia Bool Arith.
From Stdlib Require Import DecimalString.
Import ListNotations.
Open Scope string_scope.

(** ** JavaScript strings *)

Module Js.

Definition dquote : string := String (ascii_of_nat 34) EmptyString.
Definition newline : string := String (ascii_of_nat 10) EmptyString.

(** [!s] is false exactly for the non-empty strings. *)
Definition truthy (s : string) : bool :=
  match s with
  | EmptyString => false
  | String _ _ => true
  end.

(** [s.includes(pat)]. *)
Fixpoint includes (s pat : string) : bool :=
  match s with
  | EmptyString => String.prefix pat EmptyString
  | String _ rest => String.prefix pat s || includes rest pat
  end.

(** [xs.includes(x)] on an array of strings. *)
Fixpoint array_includes (xs : list string) (x : string) : bool :=
  match xs with
  | [] => false
  | y :: ys => String.eqb y x || array_includes ys x
  end.

(** White space removed by [trim], within the 8-bit alphabet: tab, line
    feed, vertical tab, form feed, carriage return and space. *)
Definition is_space (c : ascii) : bool :=
  let n := nat_of_ascii c in
  ((9 <=? n)%nat && (n <=? 13)%nat) || (n =? 32)%nat.

Fixpoint trim_start (s : string) : string :=
  match s with
  | EmptyString => EmptyString
  | String c rest => if is_space c then trim_start rest else s
  end.

Fixpoint trim_end (s : string) : string :=
  match s with
  | EmptyString => EmptyString
  | String c rest =>
      match trim_end rest with
      | EmptyString => if is_space c then EmptyString else String c EmptyString
      | rest' => String c rest'
      end
  end.

(** [s.trim()]. *)
Definition trim (s : string) : string := trim_end (trim_start s).

(** [s.split(sep)] for a one-character separator: the pieces between the
    separators, empty pieces included. *)
Fixpoint split (sep : ascii) (s : string) : list string :=
  match s with
  | EmptyString => [EmptyString]
  | String c rest =>
      if Ascii.eqb c sep then EmptyString :: split sep rest
      else
        match split sep rest with
        | [] => [String c EmptyString]
        | piece :: pieces => String c piece :: pieces
        end
  end.

(** [`${n}`] for a non-negative integer. *)
Definition of_nat (n : nat) : string := NilEmpty.string_of_uint (Nat.to_uint n).

End Js.

(** ** Values exchanged with the outside world *)

(** A review as [pulls.listReviews] returns it; the fields the action reads. *)
Record Review := {
  id : Z;
  state : string;
  commit_id : option string
}.

(** One page of [pulls.listReviews]: [result.data] and [result.headers.link]. *)
Record ListReviewsResponse := {
  data : list Review;
  headers_link : option string
}.

(** What a [throw] or a rejected promise carries: an [Error] (or a subclass
    of it, such as [TypeError]) with its [message], or any other value. *)
Inductive Thrown :=
| ErrorObj (message : string)
| NonError (value : string).

(** [error instanceof Error]. *)
Definition instanceof_Error (error : Thrown) : bool :=
  match error with
  | ErrorObj _ => true
  | NonError _ => false
  end.

Inductive Res (A : Type) :=
| Ok (a : A)
| Throw (t : Thrown).
Arguments Ok {A} a.
Arguments Throw {A} t.

(** The requests that leave the process. *)
Inductive Call :=
| ListReviews (owner repo : string) (pull_number : Z) (page : nat)
| CreateComment (owner repo : string) (issue_number : Z) (body : string)
| DismissReview (owner repo : string) (pull_number review_id : Z) (message : string).

(** A promise that settles at some instant, fulfilled or rejected. *)
Record Settled := {
  settle_at : nat;
  outcome : Res unit
}.

(** [github.context.payload.pull_request]; only [number] is read. *)
Record PullRequest := { number : Z }.

(** Everything a run depends on: the inputs of the workflow step, the
    trigger context, and how the remote service answers each request.
    [github.context.repo] is taken as available, as it is on a runner.
    The [k]-th dismissal of the fan-out is answered by
    [dismissReview k review_id message]. *)
Record Env := {
  input : string -> option string;
  payload_pull_request : option PullRequest;
  repo_owner : string;
  repo_repo : string;
  listReviews : Z -> nat -> Res ListReviewsResponse;
  createComment : Z -> string -> Res unit;
  dismissReview : nat -> Z -> string -> Settled
}.

(** ** The toolkit functions the action calls *)

Module Toolkit.

(** Modelled from the spec: [core.getInput] of the package [@actions/core],
    which is not part of [src/]. A required input that is absent (unset or
    empty) fails with the missing-required-input error; otherwise the value
    is returned with surrounding white space removed. *)
Definition getInput (env : Env) (name : string) (required : bool) : Res string :=
  let val := match input env name with Some v => v | None => EmptyString end in
  if required && negb (Js.truthy val)
  then Throw (ErrorObj ("Input required and not supplied: " ++ name))
  else Ok (Js.trim val).

(** Modelled from the spec: [core.getBooleanInput] of [@actions/core], which
    is not part of [src/]: the boolean spellings of the YAML core schema, and
    a [TypeError] for anything else. *)
Definition getBooleanInput (env : Env) (name : string) : Res bool :=
  match getInput env name false with
  | Throw t => Throw t
  | Ok val =>
      if Js.array_includes ["true"; "True"; "TRUE"] val then Ok true
      else if Js.array_includes ["false"; "False"; "FALSE"] val then Ok false
      else Throw (ErrorObj
        ("Input does not meet YAML 1.2 " ++ Js.dquote ++ "Core Schema" ++ Js.dquote
         ++ " specification: " ++ name ++ Js.newline
         ++ "Support boolean input list: `true | True | TRUE | false | False | FALSE`"))
  end.

(** Modelled from the spec: [github.getOctokit] of [@actions/github], which is
    not part of [src/]: building the client needs a non-empty credential. *)
Definition getOctokit (token : string) : Res unit :=
  if Js.truthy token then Ok tt
  else Throw (ErrorObj "Parameter token or opts.auth is required").

End Toolkit.

(** ** Computations: requests issued so far, a result or a throw, or no
    answer within the fuel *)

Definition M (A : Type) : Type := option (Res A * list Call).

Definition ret {A : Type} (a : A) : M A := Some (Ok a, []).

Definition throw {A : Type} (t : Thrown) : M A := Some (Throw t, []).

(** A synchronous toolkit call: no request is issued. *)
Definition lift {A : Type} (r : Res A) : M A := Some (r, []).

(** An awaited request [c] that the service answers with [r]. *)
Definition request {A : Type} (c : Call) (r : Res A) : M A := Some (r, [c]).

Definition bind {A B : Type} (m : M A) (k : A -> M B) : M B :=
  match m with
  | None => None
  | Some (Throw t, tr) => Some (Throw t, tr)
  | Some (Ok a, tr) =>
      match k a with
      | None => None
      | Some (r, tr') => Some (r, (tr ++ tr')%list)
      end
  end.

Notation "x <- m ;; k" := (bind m (fun x => k))
  (at level 61, m at next level, right associativity).

(** ** [main.ts] *)

Definition rel_next : string := "rel=" ++ Js.dquote ++ "next" ++ Js.dquote.

(** The [break] test of the collector:
    [!result.headers.link || !result.headers.link.includes('rel="next"')]. *)
Definition no_next_page (link : option string) : bool :=
  match link with
  | None => true
  | Some l => negb (Js.truthy l) || negb (Js.includes l rel_next)
  end.

(** The loop [for (let page = 1; ; ++page)] of [getPullRequestApprovals],
    entered at [page] with the accumulator [approvals]. *)
Fixpoint collect_pages (fuel : nat) (env : Env) (prNumber : Z) (page : nat)
    (approvals : list Review) : M (list Review) :=
  match fuel with
  | O => None
  | S fuel' =>
      result <- request (ListReviews (repo_owner env) (repo_repo env) prNumber page)
                        (listReviews env prNumber page) ;;
      let approvals' :=
        (approvals ++ filter (fun review => state review =? "APPROVED") (data result))%list in
      if no_next_page (headers_link result) then ret approvals'
      else collect_pages fuel' env prNumber (S page) approvals'
  end.

Definition getPullRequestApprovals (fuel : nat) (env : Env) (prNumber : Z)
    : M (list Review) :=
  collect_pages fuel env prNumber 1 [].

(** [excludingShasInput ? excludingShasInput.split(',').map(sha => sha.trim()) : []]. *)
Definition excludingShas (excludingShasInput : string) : list string :=
  if Js.truthy excludingShasInput
  then map Js.trim (Js.split "," excludingShasInput)
  else [].

(** The test of the exclusion filter:
    [approval.commit_id === null || !excludingShas.includes(approval.commit_id)]. *)
Definition not_excluded (shas : list string) (approval : Review) : bool :=
  match commit_id approval with
  | None => true
  | Some sha => negb (Js.array_includes shas sha)
  end.

(** [excludingShas.length > 0 ? approvals.filter(...) : approvals]. *)
Definition approvalsToProcess (shas : list string) (approvals : list Review)
    : list Review :=
  if (0 <? length shas)%nat then filter (not_excluded shas) approvals
  else approvals.

Definition dry_run_body (approvalIds : list Z) (reason : string) : string :=
  "dismiss_stale_approvals dry run: Would have dismissed "
  ++ Js.of_nat (length approvalIds)
  ++ " approvals with reason:" ++ Js.newline ++ Js.newline ++ reason.

(** The rejection that [Promise.all] reports: that of the promise that is
    rejected first (the leftmost one among those rejected at one instant). *)
Fixpoint first_rejection (promises : list Settled) : option (nat * Thrown) :=
  match promises with
  | [] => None
  | p :: rest =>
      match outcome p, first_rejection rest with
      | Ok _, later => later
      | Throw t, None => Some (settle_at p, t)
      | Throw t, Some (at', t') =>
          if (settle_at p <=? at')%nat then Some (settle_at p, t) else Some (at', t')
      end
  end.

Definition promise_all (promises : list Settled) : Res unit :=
  match first_rejection promises with
  | None => Ok tt
  | Some (_, t) => Throw t
  end.

(** The elements of an array with their indices, as [map] visits them. *)
Definition indexed {A : Type} (xs : list A) : list (nat * A) :=
  combine (seq 0 (length xs)) xs.

Definition dismissApprovals (env : Env) (approvalIds : list Z) (prNumber : Z)
    (reason : string) : M unit :=
  if (length approvalIds =? 0)%nat then ret tt
  else
    dry <- lift (Toolkit.getBooleanInput env "dry-run") ;;
    if dry : bool then
      request (CreateComment (repo_owner env) (repo_repo env) prNumber
                             (dry_run_body approvalIds reason))
              (createComment env prNumber (dry_run_body approvalIds reason))
    else
      Some (promise_all
              (map (fun '(k, approvalId) => dismissReview env k approvalId reason)
                   (indexed approvalIds)),
            map (fun approvalId =>
                   DismissReview (repo_owner env) (repo_repo env) prNumber approvalId reason)
                approvalIds).

Definition no_pull_request_message : string :=
  "event context does not contain pull request data - ensure this action was triggered on a `pull_request` event".

(** The [try] block of [run]. *)
Definition run_body (fuel : nat) (env : Env) : M unit :=
  token <- lift (Toolkit.getInput env "github-token" true) ;;
  match payload_pull_request env with
  | None => throw (ErrorObj no_pull_request_message)
  | Some pr =>
      octokit <- lift (Toolkit.getOctokit token) ;;
      approvals <- getPullRequestApprovals fuel env (number pr) ;;
      excludingShasInput <- lift (Toolkit.getInput env "excluding-shas" false) ;;
      let approvalIds :=
        map id (approvalsToProcess (excludingShas excludingShasInput) approvals) in
      reason <- lift (Toolkit.getInput env "reason" true) ;;
      dismissApprovals env approvalIds (number pr) reason
  end.

(** What a run leaves behind: the requests it issued, the lines written by
    [console.warn], and the message given to [core.setFailed], if any. *)
Record Report := {
  calls : list Call;
  warnings : list string;
  failed : option string
}.

(** The [catch] block of [run]. *)
Definition handler (error : Thrown) (issued : list Call) : Report :=
  match error with
  | ErrorObj message =>
      {| calls := issued;
         warnings := if Js.includes message "Not Found"
                     then ["Did you set the correct permissions?"] else [];
         failed := Some message |}
  | NonError _ => {| calls := issued; warnings := []; failed := None |}
  end.

Definition run (fuel : nat) (env : Env) : option Report :=
  match run_body fuel env with
  | None => None
  | Some (Ok _, issued) => Some {| calls := issued; warnings := []; failed := None |}
  | Some (Throw error, issued) => Some (handler error issued)
  end.

(** ** Notions used in the statements *)

(** The link header is there and advertises a next relation. *)
Definition advertises_next (link : option string) : bool :=
  match link with
  | None => false
  | Some l => Js.includes l rel_next
  end.

(** Page [page] is answered, with a link header that advertises a next
    relation. *)
Definition page_has_next (env : Env) (prNumber : Z) (page : nat) : bool :=
  match listReviews env prNumber page with
  | Ok result => advertises_next (headers_link result)
  | Throw _ => false
  end.

(** Page [page] is answered, without a link header or without a next
    relation in it. *)
Definition page_is_last (env : Env) (prNumber : Z) (page : nat) : bool :=
  match listReviews env prNumber page with
  | Ok result => negb (advertises_next (headers_link result))
  | Throw _ => false
  end.

(** The reviews of page [page], in the order of the service. *)
Definition page_reviews (env : Env) (prNumber : Z) (page : nat) : list Review :=
  match listReviews env prNumber page with
  | Ok result => data result
  | Throw _ => []
  end.

(** The approvals among the reviews of page [page]. *)
Definition page_approvals (env : Env) (prNumber : Z) (page : nat) : list Review :=
  filter (fun review => state review =? "APPROVED") (page_reviews env prNumber page).

(** The requests for the [n] pages from page [first] on. *)
Definition page_requests (env : Env) (prNumber : Z) (first n : nat) : list Call :=
  map (ListReviews (repo_owner env) (repo_repo env) prNumber) (seq first n).

(** An input is absent when it is unset or empty. *)
Definition absent (env : Env) (name : string) : bool :=
  match input env name with
  | None => true
  | Some v => negb (Js.truthy v)
  end.

Definition missing_input (name : string) : string :=
  "Input required and not supplied: " ++ name.

Definition is_list_request (c : Call) : bool :=
  match c with ListReviews _ _ _ _ => true | _ => false end.

Definition is_comment (c : Call) : bool :=
  match c with CreateComment _ _ _ _ => true | _ => false end.

Definition is_dismissal (c : Call) : bool :=
  match c with DismissReview _ _ _ _ _ => true | _ => false end.

(** The exclusion rule in the words of the specification: keep an approval
    if the exclusion set is empty, or its commit is null, or its commit is
    not a member of the set. *)
Definition spec_keep (E : list string) (approval : Review) : bool :=
  match E with
  | [] => true
  | _ :: _ =>
      match commit_id approval with
      | None => true
      | Some sha => if in_dec string_dec sha E then false else true
      end
  end.

Definition null_commit (approval : Review) : bool :=
  match commit_id approval with None => true | Some _ => false end.

(** [Subseq xs ys]: [xs] is [ys] with some elements left out, the others in
    their order. *)
Inductive Subseq {A : Type} : list A -> list A -> Prop :=
| Subseq_nil : Subseq [] []
| Subseq_skip x xs ys : Subseq xs ys -> Subseq xs (x :: ys)
| Subseq_keep x xs ys : Subseq xs ys -> Subseq (x :: xs) (x :: ys).

(** The part of [run] that precedes the call of [dismissApprovals]: what the
    executor is called with. *)
Definition executor_arguments (fuel : nat) (env : Env) : M (list Z * Z * string) :=
  token <- lift (Toolkit.getInput env "github-token" true) ;;
  match payload_pull_request env with
  | None => throw (ErrorObj no_pull_request_message)
  | Some pr =>
      octokit <- lift (Toolkit.getOctokit token) ;;
      approvals <- getPullRequestApprovals fuel env (number pr) ;;
      excludingShasInput <- lift (Toolkit.getInput env "excluding-shas" false) ;;
      let approvalIds :=
        map id (approvalsToProcess (excludingShas excludingShasInput) approvals) in
      reason <- lift (Toolkit.getInput env "reason" true) ;;
      ret (approvalIds, number pr, reason)
  end.



(** How often the character [c] occurs in [s]. *)
Fixpoint count_char (c : ascii) (s : string) : nat :=
  match s with
  | EmptyString => 0
  | String d rest => (if Ascii.eqb d c then 1 else 0) + count_char c rest
  end.

(** The dismissal requests for the given review ids, in their order. *)
Definition dismissals (env : Env) (prNumber : Z) (reason : string) (ids : list Z)
    : list Call :=
  map (fun approvalId =>
         DismissReview (repo_owner env) (repo_repo env) prNumber approvalId reason)
      ids.

(** What [core.setFailed] is given for a thrown value, if anything. *)
Definition reported (result : Res unit) : option string :=
  match result with
  | Ok _ => None
  | Throw (ErrorObj message) => Some message
  | Throw (NonError _) => None
  end.

(** ** Sample environments *)

Module Sample.

(** Inputs given as a table of names and values. *)
Definition inputs (table : list (string * string)) (name : string) : option string :=
  match find (fun entry => fst entry =? name) table with
  | Some entry => Some (snd entry)
  | None => None
  end.

(** A service that holds the given pages and answers any further page with
    an empty one. *)
Definition paged (pages : list ListReviewsResponse) (pull_number : Z) (page : nat)
    : Res ListReviewsResponse :=
  match nth_error pages (page - 1) with
  | Some response => Ok response
  | None => Ok {| data := []; headers_link := None |}
  end.

Definition link_next : option string :=
  Some ("<https://api.github.com/repositories/1/pulls/7/reviews?page=2>; rel="
        ++ Js.dquote ++ "next" ++ Js.dquote).

Definition link_prev : option string :=
  Some ("<https://api.github.com/repositories/1/pulls/7/reviews?page=1>; rel="
        ++ Js.dquote ++ "prev" ++ Js.dquote).

Definition r1 : Review := {| id := 1; state := "APPROVED"; commit_id := Some "abc" |}.
Definition r2 : Review := {| id := 2; state := "COMMENTED"; commit_id := Some "abc" |}.
Definition r3 : Review := {| id := 3; state := "APPROVED"; commit_id := None |}.
Definition r4 : Review := {| id := 4; state := "APPROVED"; commit_id := Some "def" |}.

Definition acks : nat -> Z -> string -> Settled :=
  fun _ _ _ => {| settle_at := 0; outcome := Ok tt |}.

Definition env_of (table : list (string * string)) (pr : option PullRequest)
    (pages : list ListReviewsResponse) : Env :=
  {| input := inputs table;
     payload_pull_request := pr;
     repo_owner := "Faire";
     repo_repo := "demo";
     listReviews := paged pages;
     createComment := fun _ _ => Ok tt;
     dismissReview := acks |}.

Definition two_pages : list ListReviewsResponse :=
  [ {| data := [r1; r2]; headers_link := link_next |};
    {| data := [r3; r4]; headers_link := link_prev |} ].

Definition live : Env :=
  env_of [("github-token", "t0k"); ("reason", "stale"); ("dry-run", "false");
          ("excluding-shas", "abc, def")]
         (Some {| number := 7 |}) two_pages.

Definition dry : Env :=
  env_of [("github-token", "t0k"); ("reason", "stale"); ("dry-run", "true")]
         (Some {| number := 7 |}) two_pages.

(** No credential and no pull request in the payload. *)
Definition no_token_no_pr : Env :=
  env_of [("reason", "stale")] None two_pages.

(** A credential but no pull request in the payload. *)
Definition no_pr : Env :=
  env_of [("github-token", "t0k"); ("reason", "stale")] None two_pages.

(** Everything but the reason. *)
Definition no_reason : Env :=
  env_of [("github-token", "t0k"); ("dry-run", "false")]
         (Some {| number := 7 |}) two_pages.

(** Everything but the reason, on a pull request without approvals. *)
Definition no_reason_no_approvals : Env :=
  env_of [("github-token", "t0k"); ("dry-run", "false")]
         (Some {| number := 7 |})
         [ {| data := [r2]; headers_link := None |} ].

(** A pull request without approvals. *)
Definition no_approvals : Env :=
  env_of [("github-token", "t0k"); ("reason", "stale"); ("dry-run", "false")]
         (Some {| number := 7 |})
         [ {| data := [r2]; headers_link := None |} ].

(** A service whose first page is rejected with a value that is not an
    [Error]. *)
Definition rejects_with_string : Env :=
  {| input := inputs [("github-token", "t0k"); ("reason", "stale")];
     payload_pull_request := Some {| number := 7 |};
     repo_owner := "Faire";
     repo_repo := "demo";
     listReviews := fun _ _ => Throw (NonError "boom");
     createComment := fun _ _ => Ok tt;
     dismissReview := acks |}.

(** One page holding an approval as the service reports it, and a comment. *)
Definition one_page : Env :=
  env_of [("github-token", "t0k"); ("reason", "stale"); ("dry-run", "false")]
         (Some {| number := 7 |})
         [ {| data := [r1; r2]; headers_link := None |} ].


(** A service whose second page is rejected with an [Error]. *)
Definition second_page_not_found : Env :=
  {| input := inputs [("github-token", "t0k"); ("reason", "stale"); ("dry-run", "false")];
     payload_pull_request := Some {| number := 7 |};
     repo_owner := "Faire";
     repo_repo := "demo";
     listReviews := fun _ page =>
       match page with
       | 1 => Ok {| data := [r1]; headers_link := link_next |}
       | _ => Throw (ErrorObj "Not Found")
       end;
     createComment := fun _ _ => Ok tt;
     dismissReview := acks |}.

(** A service every page of which advertises a next one. *)
Definition endless : Env :=
  {| input := inputs [("github-token", "t0k"); ("reason", "stale"); ("dry-run", "false")];
     payload_pull_request := Some {| number := 7 |};
     repo_owner := "Faire";
     repo_repo := "demo";
     listReviews := fun _ _ => Ok {| data := [r1]; headers_link := link_next |};
     createComment := fun _ _ => Ok tt;
     dismissReview := acks |}.

(** A service that rejects the dismissal of review 3 at instant 2 and that
    of review 4 at instant 1. *)
Definition rejects_dismissals : Env :=
  {| input := inputs [("github-token", "t0k"); ("reason", "stale"); ("dry-run", "false")];
     payload_pull_request := Some {| number := 7 |};
     repo_owner := "Faire";
     repo_repo := "demo";
     listReviews := paged two_pages;
     createComment := fun _ _ => Ok tt;
     dismissReview := fun _ review_id _ =>
       if (review_id =? 3)%Z
       then {| settle_at := 2; outcome := Throw (ErrorObj "late") |}
       else if (review_id =? 4)%Z
       then {| settle_at := 1; outcome := Throw (ErrorObj "early") |}
       else {| settle_at := 0; outcome := Ok tt |} |}.


End Sample.

(** * Properties *)

(** ** Concrete runs *)

Example includes_rel_next :
  Js.includes ("<https://api.github.com/x?page=2>; rel=" ++ Js.dquote ++ "next" ++ Js.dquote)
              ("rel=" ++ Js.dquote ++ "next" ++ Js.dquote) = true.
Proof. reflexivity. Qed.

Example includes_rel_last :
  Js.includes ("<https://api.github.com/x?page=1>; rel=" ++ Js.dquote ++ "prev" ++ Js.dquote)
              ("rel=" ++ Js.dquote ++ "next" ++ Js.dquote) = false.
Proof. reflexivity. Qed.

Example split_trim_shas :
  map Js.trim (Js.split "," "abc, def") = ["abc"; "def"].
Proof. reflexivity. Qed.

Example of_nat_12 : Js.of_nat 12 = "12".
Proof. reflexivity. Qed.

Example of_nat_0 : Js.of_nat 0 = "0".
Proof. reflexivity. Qed.

Example live_run :
  run 5 Sample.live =
  Some {| calls := [ListReviews "Faire" "demo" 7 1; ListReviews "Faire" "demo" 7 2;
                    DismissReview "Faire" "demo" 7 3 "stale"];
          warnings := []; failed := None |}.
Proof. vm_compute. reflexivity. Qed.

Example dry_run :
  run 5 Sample.dry =
  Some {| calls := [ListReviews "Faire" "demo" 7 1; ListReviews "Faire" "demo" 7 2;
                    CreateComment "Faire" "demo" 7
                      ("dismiss_stale_approvals dry run: Would have dismissed 3 approvals with reason:"
                       ++ Js.newline ++ Js.newline ++ "stale")];
          warnings := []; failed := None |}.
Proof. vm_compute. reflexivity. Qed.

Example out_of_fuel : run 1 Sample.live = None.
Proof. reflexivity. Qed.

(** ** JavaScript strings *)

Lemma prefix_app (p rest : string) : String.prefix p (p ++ rest) = true.
Proof.
  induction p as [|c p IH]; simpl.
  - destruct rest; reflexivity.
  - destruct (ascii_dec c c) as [_|ne]; [exact IH | now elim ne].
Qed.

Lemma includes_prefix (s p : string) :
  String.prefix p s = true -> Js.includes s p = true.
Proof.
  intros H. destruct s as [|c s]; cbn [Js.includes]; rewrite H; reflexivity.
Qed.

Lemma includes_here (p rest : string) : Js.includes (p ++ rest) p = true.
Proof. apply includes_prefix, prefix_app. Qed.

Lemma includes_app (before p rest : string) :
  Js.includes (before ++ p ++ rest) p = true.
Proof.
  induction before as [|c before IH]; simpl.
  - apply includes_here.
  - rewrite IH. apply orb_true_r.
Qed.

Lemma app_empty_r (s : string) : s ++ "" = s.
Proof. induction s; simpl; congruence. Qed.

Lemma app_string_assoc (s1 s2 s3 : string) : (s1 ++ s2) ++ s3 = s1 ++ (s2 ++ s3).
Proof. induction s1; simpl; congruence. Qed.

Lemma includes_end (before p : string) : Js.includes (before ++ p) p = true.
Proof.
  rewrite <- (app_empty_r p) at 1. apply includes_app.
Qed.

Lemma array_includes_In (xs : list string) (x : string) :
  Js.array_includes xs x = true <-> In x xs.
Proof.
  induction xs as [|y ys IH]; simpl.
  - split; [discriminate | tauto].
  - rewrite orb_true_iff, IH, String.eqb_eq. tauto.
Qed.

Lemma no_next_page_spec (link : option string) :
  no_next_page link = negb (advertises_next link).
Proof.
  destruct link as [[|c l]|]; reflexivity.
Qed.

(** ** The collector *)

Section Collector.

Variable env : Env.
Variable prNumber : Z.

Lemma collect_pages_last (fuel page : nat) (acc : list Review) :
  page_is_last env prNumber page = true ->
  collect_pages (S fuel) env prNumber page acc =
  Some (Ok (acc ++ page_approvals env prNumber page)%list,
        [ListReviews (repo_owner env) (repo_repo env) prNumber page]).
Proof.
  unfold page_is_last, page_approvals, page_reviews. intros last. simpl.
  destruct (listReviews env prNumber page) as [result|]; [|discriminate].
  simpl. rewrite no_next_page_spec, last. reflexivity.
Qed.

Lemma collect_pages_next (fuel page : nat) (acc : list Review) :
  page_has_next env prNumber page = true ->
  collect_pages (S fuel) env prNumber page acc =
  match collect_pages fuel env prNumber (S page)
          (acc ++ page_approvals env prNumber page)%list with
  | None => None
  | Some (r, issued) =>
      Some (r, ListReviews (repo_owner env) (repo_repo env) prNumber page :: issued)
  end.
Proof.
  unfold page_has_next, page_approvals, page_reviews. intros next. simpl.
  destruct (listReviews env prNumber page) as [result|]; [|discriminate].
  simpl. rewrite no_next_page_spec, next. simpl.
  destruct (collect_pages fuel env prNumber (S page) _) as [[r issued]|]; reflexivity.
Qed.

Lemma collect_pages_throw (fuel page : nat) (acc : list Review) (t : Thrown) :
  listReviews env prNumber page = Throw t ->
  collect_pages (S fuel) env prNumber page acc =
  Some (Throw t, [ListReviews (repo_owner env) (repo_repo env) prNumber page]).
Proof. intros rejected. simpl. rewrite rejected. reflexivity. Qed.

(** Pages [first .. first + n - 1] advertise a next page and page
    [first + n] does not: with fuel for [n + 1] iterations the loop asks for
    these [n + 1] pages and returns their approvals behind the accumulator. *)
Lemma collect_pages_spec (n : nat) : forall (first : nat) (acc : list Review),
  (forall p, first <= p < first + n -> page_has_next env prNumber p = true) ->
  page_is_last env prNumber (first + n) = true ->
  forall fuel, n < fuel ->
  collect_pages fuel env prNumber first acc =
  Some (Ok (acc ++ flat_map (page_approvals env prNumber) (seq first (S n)))%list,
        page_requests env prNumber first (S n)).
Proof.
  induction n as [|n IH]; intros first acc nexts last fuel enough;
    (destruct fuel as [|fuel]; [lia|]).
  - rewrite Nat.add_0_r in last. rewrite (collect_pages_last _ _ _ last).
    simpl. rewrite app_nil_r. reflexivity.
  - rewrite collect_pages_next by (apply nexts; lia).
    rewrite (IH (S first)).
    + rewrite <- app_assoc. reflexivity.
    + intros p range. apply nexts. lia.
    + replace (S first + n) with (first + S n) by lia. exact last.
    + lia.
Qed.

(** As long as every page advertises a next one the loop goes on. *)
Lemma collect_pages_starved (fuel : nat) : forall (n first : nat) (acc : list Review),
  (forall p, first <= p < first + n -> page_has_next env prNumber p = true) ->
  fuel <= n ->
  collect_pages fuel env prNumber first acc = None.
Proof.
  induction fuel as [|fuel IH]; intros n first acc nexts short; [reflexivity|].
  destruct n as [|n]; [lia|].
  rewrite collect_pages_next by (apply nexts; lia).
  rewrite (IH n); [reflexivity| |lia].
  intros p range. apply nexts. lia.
Qed.

(** Whatever the service answers, the requests of the loop are those for
    consecutive pages from the first one on, and there is at least one. *)
Lemma collect_pages_calls (fuel : nat) :
  forall (first : nat) (acc : list Review) r issued,
  collect_pages fuel env prNumber first acc = Some (r, issued) ->
  exists k, issued = page_requests env prNumber first (S k).
Proof.
  induction fuel as [|fuel IH]; intros first acc r issued; [discriminate|].
  simpl. destruct (listReviews env prNumber first) as [result|t]; simpl.
  - destruct (no_next_page (headers_link result)); simpl.
    + intros [= _ <-]. exists 0. reflexivity.
    + destruct (collect_pages fuel env prNumber (S first) _) as [[r' issued']|] eqn:rest;
        [|discriminate].
      intros [= _ <-]. destruct (IH _ _ _ _ rest) as [k ->].
      exists (S k). reflexivity.
  - intros [= _ <-]. exists 0. reflexivity.
Qed.

(** Only approvals enter the accumulator. *)
Lemma collect_pages_approved (fuel : nat) :
  forall (first : nat) (acc approvals : list Review) issued,
  Forall (fun review => state review = "APPROVED") acc ->
  collect_pages fuel env prNumber first acc = Some (Ok approvals, issued) ->
  Forall (fun review => state review = "APPROVED") approvals.
Proof.
  induction fuel as [|fuel IH]; intros first acc approvals issued good; [discriminate|].
  simpl. destruct (listReviews env prNumber first) as [result|t]; simpl; [|discriminate].
  assert (good' : Forall (fun review => state review = "APPROVED")
                    (acc ++ filter (fun review => state review =? "APPROVED") (data result))).
  { apply Forall_app. split; [exact good|].
    apply Forall_forall. intros review [_ is_approved]%filter_In.
    now apply String.eqb_eq. }
  destruct (no_next_page (headers_link result)); simpl.
  - intros [= <- _]. exact good'.
  - destruct (collect_pages fuel env prNumber (S first) _) as [[[approvals'|t] issued']|] eqn:rest;
      try discriminate.
    intros [= <- _]. exact (IH _ _ _ _ good' rest).
Qed.

End Collector.

(** C1: when pages 1 to N-1 carry a link header that advertises a next
    relation and page N has no link header or no next relation in it, the
    collector issues exactly the N requests for pages 1, 2, ..., N, in this
    order, and returns after page N. Nothing else stops it: whatever N is,
    it has not returned within fewer than N iterations. *)
Theorem C1_collector_requests_pages_1_to_N (env : Env) (prNumber : Z) (N : nat) :
  1 <= N ->
  (forall p, 1 <= p < N -> page_has_next env prNumber p = true) ->
  page_is_last env prNumber N = true ->
  (forall fuel, N <= fuel ->
     exists approvals,
       getPullRequestApprovals fuel env prNumber =
       Some (Ok approvals,
             map (ListReviews (repo_owner env) (repo_repo env) prNumber) (seq 1 N)))
  /\ (forall fuel, fuel < N -> getPullRequestApprovals fuel env prNumber = None).
Proof.
  intros positive nexts last. destruct N as [|n]; [lia|]. split.
  - intros fuel enough. eexists. unfold getPullRequestApprovals.
    apply (collect_pages_spec env prNumber n 1 []); [| exact last | lia].
    intros p range. apply nexts. lia.
  - intros fuel short. unfold getPullRequestApprovals.
    apply (collect_pages_starved env prNumber fuel n 1 []); [|lia].
    intros p range. apply nexts. lia.
Qed.

Lemma C1_witness :
  (exists approvals,
     getPullRequestApprovals 2 Sample.live 7 =
     Some (Ok approvals, [ListReviews "Faire" "demo" 7 1; ListReviews "Faire" "demo" 7 2]))
  /\ getPullRequestApprovals 1 Sample.live 7 = None.
Proof.
  destruct (C1_collector_requests_pages_1_to_N Sample.live 7 2) as [returns starved].
  - lia.
  - intros p range. assert (p = 1) as -> by lia. reflexivity.
  - reflexivity.
  - split; [apply (returns 2) | apply (starved 1)]; lia.
Defined.

(** A service that always advertises a next page is asked for ever. *)
Lemma collector_has_no_page_cap (env : Env) (prNumber : Z) :
  (forall p, 1 <= p -> page_has_next env prNumber p = true) ->
  forall fuel, getPullRequestApprovals fuel env prNumber = None.
Proof.
  intros nexts fuel. unfold getPullRequestApprovals.
  apply (collect_pages_starved env prNumber fuel fuel 1 []); [|lia].
  intros p range. apply nexts. lia.
Qed.

(** The first request is for page 1 and each further one for the next page,
    whatever the service answers. *)
Lemma collector_pages_are_consecutive (fuel : nat) (env : Env) (prNumber : Z) r issued :
  getPullRequestApprovals fuel env prNumber = Some (r, issued) ->
  exists k, issued = page_requests env prNumber 1 (S k).
Proof. apply collect_pages_calls. Qed.

(** The state is compared exactly, with the spelling of the service: a
    review in state [APPROVED] is collected, one in any other state is not. *)
Example collector_on_one_page :
  getPullRequestApprovals 1 Sample.one_page 7 =
    Some (Ok [Sample.r1], [ListReviews "Faire" "demo" 7 1])
  /\ state Sample.r1 = "APPROVED"
  /\ state Sample.r2 = "COMMENTED".
Proof. repeat split. Qed.

(** C5: when pages 1 to N-1 advertise a next page and page N does not, the
    collector returns exactly the reviews in the approved state (the state
    that the service spells [APPROVED]), page after page in page order and
    within a page in the order of the service; and whatever the service
    answers, every review that the collector returns is in that state, so no
    review in another state can be dismissed. *)
Theorem C5_collector_returns_the_APPROVED_reviews (env : Env) (prNumber : Z) (N : nat) :
  1 <= N ->
  (forall p, 1 <= p < N -> page_has_next env prNumber p = true) ->
  page_is_last env prNumber N = true ->
  (forall fuel, N <= fuel ->
     exists issued,
       getPullRequestApprovals fuel env prNumber =
       Some (Ok (flat_map
                   (fun page => filter (fun review => state review =? "APPROVED")
                                       (page_reviews env prNumber page))
                   (seq 1 N)),
             issued))
  /\ (forall fuel approvals issued,
        getPullRequestApprovals fuel env prNumber = Some (Ok approvals, issued) ->
        Forall (fun review => state review = "APPROVED") approvals).
Proof.
  intros positive nexts last. destruct N as [|n]; [lia|]. split.
  - intros fuel enough. eexists. unfold getPullRequestApprovals.
    apply (collect_pages_spec env prNumber n 1 []); [| exact last | lia].
    intros p range. apply nexts. lia.
  - intros fuel approvals issued returned.
    apply (collect_pages_approved env prNumber fuel 1 [] approvals issued);
      [constructor | exact returned].
Qed.

Lemma C5_witness :
  (exists issued,
     getPullRequestApprovals 2 Sample.live 7 =
     Some (Ok [Sample.r1; Sample.r3; Sample.r4], issued))
  /\ Forall (fun review => state review = "APPROVED") [Sample.r1; Sample.r3; Sample.r4].
Proof.
  destruct (C5_collector_returns_the_APPROVED_reviews Sample.live 7 2) as [returns approved].
  - lia.
  - intros p range. assert (p = 1) as -> by lia. reflexivity.
  - reflexivity.
  - split; [apply (returns 2); lia|].
    apply (approved 2 _ [ListReviews "Faire" "demo" 7 1; ListReviews "Faire" "demo" 7 2]).
    reflexivity.
Defined.

(** A rejected page request ends the collection with that rejection: the
    approvals gathered so far are not returned. *)
Lemma collect_pages_rejected (env : Env) (prNumber : Z) (t : Thrown) (n : nat) :
  forall (first : nat) (acc : list Review),
  (forall p, first <= p < first + n -> page_has_next env prNumber p = true) ->
  listReviews env prNumber (first + n) = Throw t ->
  forall fuel, n < fuel ->
  collect_pages fuel env prNumber first acc =
  Some (Throw t, page_requests env prNumber first (S n)).
Proof.
  induction n as [|n IH]; intros first acc nexts rejected fuel enough;
    (destruct fuel as [|fuel]; [lia|]).
  - rewrite Nat.add_0_r in rejected.
    rewrite (collect_pages_throw _ _ _ _ _ _ rejected). reflexivity.
  - rewrite collect_pages_next by (apply nexts; lia).
    rewrite (IH (S first)); [reflexivity | | | lia].
    + intros p range. apply nexts. lia.
    + replace (S first + n) with (first + S n) by lia. exact rejected.
Qed.

(** ** The exclusion filter *)

Lemma filter_Subseq {A : Type} (f : A -> bool) (xs : list A) : Subseq (filter f xs) xs.
Proof.
  induction xs as [|x xs IH]; simpl; [constructor|].
  destruct (f x); now constructor.
Qed.

Lemma Subseq_refl {A : Type} (xs : list A) : Subseq xs xs.
Proof. induction xs; now constructor. Qed.

Lemma filter_all {A : Type} (f : A -> bool) (xs : list A) :
  (forall x, f x = true) -> filter f xs = xs.
Proof.
  intros all. induction xs as [|x xs IH]; simpl; [reflexivity|].
  rewrite all, IH. reflexivity.
Qed.

Lemma filter_filter_weaker {A : Type} (f g : A -> bool) (xs : list A) :
  (forall x, f x = true -> g x = true) -> filter f (filter g xs) = filter f xs.
Proof.
  intros weaker. induction xs as [|x xs IH]; simpl; [reflexivity|].
  destruct (g x) eqn:gx; simpl.
  - rewrite IH. reflexivity.
  - destruct (f x) eqn:fx; [|exact IH].
    rewrite (weaker x fx) in gx. discriminate.
Qed.

Lemma not_excluded_spec (sha : string) (shas : list string) (approval : Review) :
  not_excluded (sha :: shas) approval = spec_keep (sha :: shas) approval.
Proof.
  unfold not_excluded, spec_keep. destruct (commit_id approval) as [c|]; [|reflexivity].
  destruct (in_dec string_dec c (sha :: shas)) as [member|stranger].
  - apply array_includes_In in member. rewrite member. reflexivity.
  - destruct (Js.array_includes (sha :: shas) c) eqn:found; [|reflexivity].
    apply array_includes_In in found. contradiction.
Qed.

(** C2: the exclusion filter returns the approvals that the rule of the
    specification keeps (the exclusion set is empty, or the commit is null,
    or the commit is not in the set), in their order; the result is a
    subsequence of its input; and the approvals with a null commit pass it
    unchanged, whatever the exclusion set. *)
Theorem C2_exclusion_filter (E : list string) (A : list Review) :
  approvalsToProcess E A = filter (spec_keep E) A
  /\ Subseq (approvalsToProcess E A) A
  /\ filter null_commit (approvalsToProcess E A) = filter null_commit A.
Proof.
  unfold approvalsToProcess. destruct E as [|sha shas]; simpl.
  - repeat split.
    + symmetry. now apply filter_all.
    + apply Subseq_refl.
  - repeat split.
    + apply filter_ext. intros approval. apply not_excluded_spec.
    + apply filter_Subseq.
    + apply filter_filter_weaker. intros approval.
      unfold null_commit, not_excluded.
      destruct (commit_id approval); [discriminate | reflexivity].
Qed.

(** Filtering twice with one exclusion set is filtering once. *)
Lemma approvalsToProcess_idempotent (E : list string) (A : list Review) :
  approvalsToProcess E (approvalsToProcess E A) = approvalsToProcess E A.
Proof.
  unfold approvalsToProcess. destruct (0 <? length E)%nat; [|reflexivity].
  now apply filter_filter_weaker.
Qed.

Example exclusion_example :
  approvalsToProcess (excludingShas "abc, def") [Sample.r1; Sample.r3; Sample.r4]
  = [Sample.r3].
Proof. reflexivity. Qed.

(** ** The executor *)

Lemma promise_all_fulfilled (promises : list Settled) :
  promise_all promises = Ok tt <->
  Forall (fun p => exists u, outcome p = Ok u) promises.
Proof.
  unfold promise_all. induction promises as [|p rest IH]; simpl.
  - split; [constructor | reflexivity].
  - destruct (outcome p) as [u|t] eqn:settled.
    + rewrite IH. split.
      * intros all. constructor; [now exists u | exact all].
      * intros all. now inversion all.
    + split.
      * destruct (first_rejection rest) as [[at' t']|];
          [destruct (settle_at p <=? at')%nat|]; discriminate.
      * intros all. inversion all as [|? ? [u fulfilled] _]; subst.
        rewrite settled in fulfilled. discriminate.
Qed.

Lemma first_rejection_In (promises : list Settled) (instant : nat) (t : Thrown) :
  first_rejection promises = Some (instant, t) ->
  exists p, In p promises /\ outcome p = Throw t /\ settle_at p = instant.
Proof.
  revert instant t. induction promises as [|p rest IH]; simpl; intros instant t;
    [discriminate|].
  destruct (outcome p) as [u|t0] eqn:settled.
  - intros later. destruct (IH _ _ later) as [q [member facts]].
    exists q. split; [now right | exact facts].
  - destruct (first_rejection rest) as [[at' t']|].
    + destruct (settle_at p <=? at')%nat.
      * intros [= <- <-]. exists p. split; [now left | now split].
      * intros [= <- <-]. destruct (IH _ _ eq_refl) as [q [member facts]].
        exists q. split; [now right | exact facts].
    + intros [= <- <-]. exists p. split; [now left | now split].
Qed.

Lemma length_zero {A : Type} (xs : list A) : xs <> [] -> (length xs =? 0)%nat = false.
Proof. destruct xs; [congruence | reflexivity]. Qed.

(** C3: called with a non-empty list of approval ids while the dry-run flag
    is set, the executor issues one request, the creation of a comment on
    the pull request; the body of the comment gives the number of approvals
    and the reason; no dismissal is requested. *)
Theorem C3_dry_run_posts_one_comment (env : Env) (approvalIds : list Z) (prNumber : Z)
    (reason : string) :
  approvalIds <> [] ->
  Toolkit.getBooleanInput env "dry-run" = Ok true ->
  exists body result,
    dismissApprovals env approvalIds prNumber reason =
      Some (result, [CreateComment (repo_owner env) (repo_repo env) prNumber body])
    /\ body = "dismiss_stale_approvals dry run: Would have dismissed "
              ++ Js.of_nat (length approvalIds)
              ++ " approvals with reason:" ++ Js.newline ++ Js.newline ++ reason
    /\ Js.includes body (Js.of_nat (length approvalIds)) = true
    /\ Js.includes body reason = true
    /\ filter is_dismissal
         [CreateComment (repo_owner env) (repo_repo env) prNumber body] = [].
Proof.
  intros some flag. exists (dry_run_body approvalIds reason).
  exists (createComment env prNumber (dry_run_body approvalIds reason)).
  unfold dismissApprovals. rewrite (length_zero _ some), flag.
  repeat split.
  - apply includes_app.
  - unfold dry_run_body. rewrite <- !app_string_assoc. apply includes_end.
Qed.

Lemma C3_witness :
  exists body result,
    dismissApprovals Sample.dry [1; 2]%Z 7 "stale" =
      Some (result, [CreateComment "Faire" "demo" 7 body])
    /\ body = "dismiss_stale_approvals dry run: Would have dismissed "
              ++ "2" ++ " approvals with reason:" ++ Js.newline ++ Js.newline ++ "stale"
    /\ Js.includes body "2" = true
    /\ Js.includes body "stale" = true
    /\ filter is_dismissal [CreateComment "Faire" "demo" 7 body] = [].
Proof.
  apply (C3_dry_run_posts_one_comment Sample.dry [1; 2]%Z 7 "stale").
  - discriminate.
  - reflexivity.
Defined.

(** C4: called with a non-empty list of approval ids while the dry-run flag
    is false, the executor issues one dismissal per approval id of the list
    and nothing else, each with the reason as its message; no comment is
    created. *)
Theorem C4_live_mode_dismisses_each_approval (env : Env) (approvalIds : list Z)
    (prNumber : Z) (reason : string) :
  approvalIds <> [] ->
  Toolkit.getBooleanInput env "dry-run" = Ok false ->
  exists result issued,
    dismissApprovals env approvalIds prNumber reason = Some (result, issued)
    /\ issued = map (fun approvalId =>
                       DismissReview (repo_owner env) (repo_repo env) prNumber
                                     approvalId reason)
                    approvalIds
    /\ length issued = length approvalIds
    /\ filter is_comment issued = [].
Proof.
  intros some flag. unfold dismissApprovals. rewrite (length_zero _ some), flag.
  do 2 eexists. split; [reflexivity|]. split; [reflexivity|]. split.
  - apply length_map.
  - clear. induction approvalIds as [|approvalId rest IH]; [reflexivity | exact IH].
Qed.

Lemma C4_witness :
  exists result issued,
    dismissApprovals Sample.live [1; 2]%Z 7 "stale" = Some (result, issued)
    /\ issued = [DismissReview "Faire" "demo" 7 1 "stale";
                 DismissReview "Faire" "demo" 7 2 "stale"]
    /\ length issued = 2
    /\ filter is_comment issued = [].
Proof.
  apply (C4_live_mode_dismisses_each_approval Sample.live [1; 2]%Z 7 "stale").
  - discriminate.
  - reflexivity.
Defined.

(** ** Computations *)

Lemma bind_lift_Ok {A B : Type} (a : A) (k : A -> M B) : bind (lift (Ok a)) k = k a.
Proof. unfold bind, lift. destruct (k a) as [[r issued]|]; reflexivity. Qed.

Lemma bind_lift_Throw {A B : Type} (t : Thrown) (k : A -> M B) :
  bind (lift (Throw t)) k = throw t.
Proof. reflexivity. Qed.

Lemma bind_ret {A : Type} (m : M A) : bind m ret = m.
Proof.
  destruct m as [[[a|t] issued]|]; simpl; [rewrite app_nil_r|..]; reflexivity.
Qed.

Lemma bind_ext {A B : Type} (m : M A) (k k' : A -> M B) :
  (forall a, k a = k' a) -> bind m k = bind m k'.
Proof.
  intros same. destruct m as [[[a|t] issued]|]; simpl; [rewrite same|..]; reflexivity.
Qed.

Lemma bind_assoc {A B C : Type} (m : M A) (k : A -> M B) (h : B -> M C) :
  bind (bind m k) h = bind m (fun a => bind (k a) h).
Proof.
  destruct m as [[[a|t] issued]|]; simpl; [|reflexivity..].
  destruct (k a) as [[[b|t] issued']|]; simpl; [|reflexivity..].
  destruct (h b) as [[r issued'']|]; [|reflexivity].
  rewrite app_assoc. reflexivity.
Qed.

(** ** The toolkit *)

Lemma getInput_absent (env : Env) (name : string) :
  absent env name = true ->
  Toolkit.getInput env name true = Throw (ErrorObj (missing_input name)).
Proof.
  unfold absent, Toolkit.getInput. destruct (input env name) as [[|c v]|];
    [reflexivity | discriminate | reflexivity].
Qed.

Lemma getInput_present (env : Env) (name value : string) :
  Toolkit.getInput env name true = Ok value -> absent env name = false.
Proof.
  unfold absent, Toolkit.getInput. destruct (input env name) as [[|c v]|];
    [discriminate | reflexivity | discriminate].
Qed.

Lemma getInput_optional (env : Env) (name : string) :
  exists value, Toolkit.getInput env name false = Ok value.
Proof. eexists. reflexivity. Qed.

(** ** The run *)

(** [run] is its part before the executor, then the executor. *)
Lemma run_body_split (fuel : nat) (env : Env) :
  run_body fuel env =
  bind (executor_arguments fuel env)
       (fun '(approvalIds, prNumber, reason) =>
          dismissApprovals env approvalIds prNumber reason).
Proof.
  unfold run_body, executor_arguments.
  rewrite bind_assoc. apply bind_ext. intros token.
  destruct (payload_pull_request env) as [pr|]; [|reflexivity].
  rewrite bind_assoc. apply bind_ext. intros octokit.
  rewrite bind_assoc. apply bind_ext. intros approvals.
  rewrite bind_assoc. apply bind_ext. intros excludingShasInput.
  rewrite bind_assoc. apply bind_ext. intros reason.
  destruct (dismissApprovals env _ (number pr) reason) as [[r issued]|] eqn:executed;
    unfold ret, bind; rewrite executed; reflexivity.
Qed.

Lemma page_requests_list (env : Env) (prNumber : Z) (first n : nat) :
  forallb is_list_request (page_requests env prNumber first n) = true.
Proof.
  unfold page_requests. apply forallb_forall.
  intros c [page [<- _]]%in_map_iff. reflexivity.
Qed.

(** The part of [run] before the executor issues the requests of the
    collector, if it gets that far, and no others. *)
Lemma executor_arguments_calls (fuel : nat) (env : Env) r issued :
  executor_arguments fuel env = Some (r, issued) ->
  forallb is_list_request issued = true.
Proof.
  unfold executor_arguments.
  destruct (Toolkit.getInput env "github-token" true) as [token|t];
    [rewrite bind_lift_Ok | intros [= _ <-]; reflexivity].
  destruct (payload_pull_request env) as [pr|]; [|intros [= _ <-]; reflexivity].
  destruct (Toolkit.getOctokit token) as [octokit|t];
    [rewrite bind_lift_Ok | intros [= _ <-]; reflexivity].
  destruct (getPullRequestApprovals fuel env (number pr))
    as [[[approvals|t] pages]|] eqn:collected; [| | discriminate];
    destruct (collector_pages_are_consecutive _ _ _ _ _ collected) as [k ->].
  - destruct (getInput_optional env "excluding-shas") as [shas ->].
    unfold bind at 1. rewrite bind_lift_Ok.
    destruct (Toolkit.getInput env "reason" true) as [reason|t].
    + rewrite bind_lift_Ok. cbv beta iota delta [ret]. intros [= _ <-].
      rewrite app_nil_r. apply page_requests_list.
    + rewrite bind_lift_Throw. cbv beta iota delta [throw]. intros [= _ <-].
      rewrite app_nil_r. apply page_requests_list.
  - unfold bind. intros [= _ <-]. apply page_requests_list.
Qed.

(** What it takes for [run] to reach the executor. *)
Lemma executor_arguments_Ok (fuel : nat) (env : Env) approvalIds prNumber reason issued :
  executor_arguments fuel env = Some (Ok (approvalIds, prNumber, reason), issued) ->
  exists token pr approvals shas,
    Toolkit.getInput env "github-token" true = Ok token
    /\ payload_pull_request env = Some pr
    /\ prNumber = number pr
    /\ Toolkit.getOctokit token = Ok tt
    /\ getPullRequestApprovals fuel env prNumber = Some (Ok approvals, issued)
    /\ Toolkit.getInput env "excluding-shas" false = Ok shas
    /\ approvalIds = map id (approvalsToProcess (excludingShas shas) approvals)
    /\ Toolkit.getInput env "reason" true = Ok reason.
Proof.
  unfold executor_arguments.
  destruct (Toolkit.getInput env "github-token" true) as [token|t] eqn:credential;
    [rewrite bind_lift_Ok | discriminate].
  destruct (payload_pull_request env) as [pr|] eqn:present; [|discriminate].
  destruct (Toolkit.getOctokit token) as [[]|t] eqn:client;
    [rewrite bind_lift_Ok | discriminate].
  destruct (getPullRequestApprovals fuel env (number pr))
    as [[[approvals|t] pages]|] eqn:collected; [| discriminate..].
  destruct (getInput_optional env "excluding-shas") as [shas optional].
  rewrite optional. unfold bind at 1. rewrite bind_lift_Ok.
  destruct (Toolkit.getInput env "reason" true) as [reason'|t] eqn:supplied;
    [|discriminate].
  rewrite bind_lift_Ok. cbv beta iota delta [ret]. rewrite app_nil_r.
  intros [= <- <- <- <-].
  exists token, pr, approvals, shas. repeat split; assumption.
Qed.

Lemma executor_arguments_reach (fuel : nat) (env : Env) token pr approvals issued :
  Toolkit.getInput env "github-token" true = Ok token ->
  Toolkit.getOctokit token = Ok tt ->
  payload_pull_request env = Some pr ->
  getPullRequestApprovals fuel env (number pr) = Some (Ok approvals, issued) ->
  executor_arguments fuel env =
  match Toolkit.getInput env "reason" true with
  | Throw t => Some (Throw t, issued)
  | Ok reason =>
      match Toolkit.getInput env "excluding-shas" false with
      | Throw t => Some (Throw t, issued)
      | Ok shas =>
          Some (Ok (map id (approvalsToProcess (excludingShas shas) approvals),
                    number pr, reason), issued)
      end
  end.
Proof.
  intros credential client present collected. unfold executor_arguments.
  rewrite credential, bind_lift_Ok, present, client, bind_lift_Ok, collected.
  destruct (getInput_optional env "excluding-shas") as [shas ->].
  unfold bind at 1. rewrite bind_lift_Ok.
  destruct (Toolkit.getInput env "reason" true) as [reason|t].
  - rewrite bind_lift_Ok. cbv beta iota delta [ret]. rewrite app_nil_r. reflexivity.
  - rewrite bind_lift_Throw. cbv beta iota delta [throw]. rewrite app_nil_r. reflexivity.
Qed.

(** C6, as the specification words it, fails: the reason is read when the
    arguments of the executor are built, after the collector has run. Here the
    reason is absent and the run fails with the missing-required-input error
    only after the two page requests of the collector. *)
Lemma C6_counterexample :
  absent Sample.no_reason "reason" = true
  /\ run 2 Sample.no_reason =
     Some {| calls := [ListReviews "Faire" "demo" 7 1; ListReviews "Faire" "demo" 7 2];
             warnings := [];
             failed := Some "Input required and not supplied: reason" |}.
Proof. split; reflexivity. Qed.

(** C6 (amended): when the reason input is absent, no run issues a request
    other than the page requests of the collector; and if the credential and
    the pull request are there and the collector returns, the run fails with
    the missing-required-input error for the reason after the requests of
    the collector (at least one) and before any request of the executor. Of
    the required inputs only the credential is read before the collector
    runs. *)
Theorem C6_reason_is_read_after_the_collector (env : Env) :
  absent env "reason" = true ->
  (forall fuel report,
     run fuel env = Some report -> forallb is_list_request (calls report) = true)
  /\ (forall fuel token pr approvals issued,
        Toolkit.getInput env "github-token" true = Ok token ->
        Toolkit.getOctokit token = Ok tt ->
        payload_pull_request env = Some pr ->
        getPullRequestApprovals fuel env (number pr) = Some (Ok approvals, issued) ->
        run fuel env =
          Some {| calls := issued; warnings := [];
                  failed := Some "Input required and not supplied: reason" |}
        /\ issued <> []).
Proof.
  intros missing. split.
  - intros fuel report. unfold run. rewrite run_body_split.
    destruct (executor_arguments fuel env) as [[[[[ids prNumber] reason]|t] issued]|] eqn:reached;
      [| |discriminate].
    + apply executor_arguments_Ok in reached
        as (token & pr & approvals & shas & _ & _ & _ & _ & _ & _ & _ & supplied).
      apply getInput_present in supplied. congruence.
    + apply executor_arguments_calls in reached. unfold bind.
      intros [= <-]. destruct t; exact reached.
  - intros fuel token pr approvals issued credential client present collected. split.
    + unfold run. rewrite run_body_split.
      rewrite (executor_arguments_reach _ _ _ _ _ _ credential client present collected).
      rewrite (getInput_absent _ _ missing). reflexivity.
    + destruct (collector_pages_are_consecutive _ _ _ _ _ collected) as [k ->].
      discriminate.
Qed.

Lemma C6_witness :
  run 2 Sample.no_reason =
    Some {| calls := [ListReviews "Faire" "demo" 7 1; ListReviews "Faire" "demo" 7 2];
            warnings := [];
            failed := Some "Input required and not supplied: reason" |}
  /\ [ListReviews "Faire" "demo" 7 1; ListReviews "Faire" "demo" 7 2] <> [].
Proof.
  destruct (C6_reason_is_read_after_the_collector Sample.no_reason) as [_ fails];
    [reflexivity|].
  apply (fails 2 "t0k" {| number := 7 |} [Sample.r1; Sample.r3; Sample.r4]);
    reflexivity.
Defined.

Lemma getInput_supplied (env : Env) (name : string) :
  absent env name = false -> exists value, Toolkit.getInput env name true = Ok value.
Proof.
  unfold absent, Toolkit.getInput. destruct (input env name) as [[|c v]|];
    [discriminate | eexists; reflexivity | discriminate].
Qed.

Example no_pull_request_message_instructs :
  Js.includes no_pull_request_message
              "ensure this action was triggered on a `pull_request` event" = true.
Proof. reflexivity. Qed.

(** C7, as the specification words it, fails: the credential is read before
    the payload is looked at, so without a credential the failure message is
    that of the missing input and says nothing about the trigger. *)
Lemma C7_counterexample :
  payload_pull_request Sample.no_token_no_pr = None
  /\ run 0 Sample.no_token_no_pr =
     Some {| calls := []; warnings := [];
             failed := Some "Input required and not supplied: github-token" |}
  /\ Js.includes "Input required and not supplied: github-token" "pull_request" = false.
Proof. repeat split. Qed.

(** C7 (amended): when the payload holds no pull request the run fails
    before any request is issued; when the credential is supplied the
    failure message is the one that tells the caller to trigger the action
    on a [pull_request] event, and when the credential is absent it is the
    missing-required-input message for the credential. *)
Theorem C7_no_pull_request_fails_before_any_request (fuel : nat) (env : Env) :
  payload_pull_request env = None ->
  exists message,
    run fuel env = Some {| calls := []; warnings := []; failed := Some message |}
    /\ (absent env "github-token" = false ->
        message = "event context does not contain pull request data - ensure this action was triggered on a `pull_request` event")
    /\ (absent env "github-token" = true ->
        message = "Input required and not supplied: github-token").
Proof.
  intros no_pr. unfold run, run_body.
  destruct (absent env "github-token") eqn:credential.
  - rewrite (getInput_absent _ _ credential). eexists. repeat split. discriminate.
  - destruct (getInput_supplied _ _ credential) as [token ->].
    rewrite bind_lift_Ok, no_pr. eexists. repeat split. discriminate.
Qed.

Lemma C7_witness :
  run 3 Sample.no_pr =
  Some {| calls := []; warnings := [];
          failed := Some "event context does not contain pull request data - ensure this action was triggered on a `pull_request` event" |}.
Proof.
  destruct (C7_no_pull_request_fails_before_any_request 3 Sample.no_pr)
    as [message [fails [supplied _]]]; [reflexivity|].
  rewrite fails, supplied; reflexivity.
Defined.

(** C8, as the specification words it, fails: with an empty list of
    approvals the run still reads the reason, which is required, before it
    calls the executor. Here the list is empty and the run fails. *)
Lemma C8_counterexample :
  getPullRequestApprovals 1 Sample.no_reason_no_approvals 7 =
    Some (Ok [], [ListReviews "Faire" "demo" 7 1])
  /\ map id (approvalsToProcess (excludingShas "") []) = []
  /\ run 1 Sample.no_reason_no_approvals =
     Some {| calls := [ListReviews "Faire" "demo" 7 1]; warnings := [];
             failed := Some "Input required and not supplied: reason" |}.
Proof. repeat split. Qed.

(** C8 (amended): called with an empty list of approval ids the executor
    issues no request and returns; and every run that calls the executor
    with an empty list (the required inputs, the reason among them, have
    been read) issues the page requests of the collector and no others, and
    reports no failure. *)
Theorem C8_empty_list_is_a_no_op (env : Env) :
  (forall prNumber reason, dismissApprovals env [] prNumber reason = Some (Ok tt, []))
  /\ (forall fuel prNumber reason issued,
        executor_arguments fuel env = Some (Ok ([], prNumber, reason), issued) ->
        run fuel env = Some {| calls := issued; warnings := []; failed := None |}
        /\ forallb is_list_request issued = true).
Proof.
  split; [reflexivity|].
  intros fuel prNumber reason issued reached. split.
  - unfold run. rewrite run_body_split, reached. simpl. rewrite app_nil_r. reflexivity.
  - exact (executor_arguments_calls _ _ _ _ reached).
Qed.

Lemma C8_witness :
  dismissApprovals Sample.no_approvals [] 7 "stale" = Some (Ok tt, [])
  /\ run 1 Sample.no_approvals =
     Some {| calls := [ListReviews "Faire" "demo" 7 1]; warnings := []; failed := None |}
  /\ forallb is_list_request [ListReviews "Faire" "demo" 7 1] = true.
Proof.
  destruct (C8_empty_list_is_a_no_op Sample.no_approvals) as [no_op whole].
  split; [apply no_op|].
  apply (whole 1 7%Z "stale"). reflexivity.
Defined.

Example no_approvals_run :
  executor_arguments 1 Sample.no_approvals =
    Some (Ok ([], 7%Z, "stale"), [ListReviews "Faire" "demo" 7 1])
  /\ run 1 Sample.no_approvals =
     Some {| calls := [ListReviews "Faire" "demo" 7 1]; warnings := []; failed := None |}.
Proof. split; reflexivity. Qed.

(** C9: when the body of [run] throws a value that is not an [Error], the
    handler gives no failure message and writes no warning: the run ends
    without reporting the failure. Only an [Error] is turned into a
    failure message. *)
Theorem C9_non_Error_is_not_reported (fuel : nat) (env : Env) (error : Thrown)
    (issued : list Call) :
  run_body fuel env = Some (Throw error, issued) ->
  instanceof_Error error = false ->
  run fuel env = Some {| calls := issued; warnings := []; failed := None |}
  /\ failed (handler error issued) = None.
Proof.
  intros thrown other. unfold run. rewrite thrown.
  destruct error as [message|value]; [discriminate|]. split; reflexivity.
Qed.

Lemma C9_witness :
  run 1 Sample.rejects_with_string =
    Some {| calls := [ListReviews "Faire" "demo" 7 1]; warnings := []; failed := None |}
  /\ failed (handler (NonError "boom") [ListReviews "Faire" "demo" 7 1]) = None.
Proof.
  apply (C9_non_Error_is_not_reported 1 Sample.rejects_with_string (NonError "boom")
           [ListReviews "Faire" "demo" 7 1]); reflexivity.
Defined.

(** An [Error], on the other hand, always becomes the failure message. *)
Lemma Error_is_reported (fuel : nat) (env : Env) (message : string) (issued : list Call) :
  run_body fuel env = Some (Throw (ErrorObj message), issued) ->
  exists report, run fuel env = Some report /\ failed report = Some message.
Proof.
  intros thrown. unfold run. rewrite thrown. eexists. split; reflexivity.
Qed.

(** C10: when the credential input is absent the run fails with the
    missing-required-input error for it, without any request, whether or not
    the payload holds a pull request: the credential is read first. *)
Theorem C10_missing_token_takes_precedence (fuel : nat) (env : Env) :
  absent env "github-token" = true ->
  run fuel env =
  Some {| calls := []; warnings := [];
          failed := Some "Input required and not supplied: github-token" |}.
Proof.
  intros missing. unfold run, run_body. rewrite (getInput_absent _ _ missing).
  reflexivity.
Qed.

Lemma C10_witness :
  payload_pull_request Sample.no_token_no_pr = None
  /\ run 4 Sample.no_token_no_pr =
     Some {| calls := []; warnings := [];
             failed := Some "Input required and not supplied: github-token" |}.
Proof.
  split; [reflexivity|].
  apply (C10_missing_token_takes_precedence 4 Sample.no_token_no_pr). reflexivity.
Defined.

(** * Further properties of [main.ts] *)

(** ** Parsing the exclusion list *)

Lemma split_length (sep : ascii) (s : string) :
  length (Js.split sep s) = S (count_char sep s).
Proof.
  induction s as [|c s IH]; simpl; [reflexivity|].
  destruct (Ascii.eqb c sep); simpl; [now rewrite IH|].
  destruct (Js.split sep s) as [|piece pieces]; simpl in *; [discriminate | exact IH].
Qed.












(** X1: the exclusion list parsed from an empty input is empty; parsed from
    any other input it has one entry more than the input has commas, so it
    is never empty and the filter is applied. *)
Theorem X1_excludingShas_length (excludingShasInput : string) :
  length (excludingShas excludingShasInput) =
  if Js.truthy excludingShasInput
  then S (count_char ","%char excludingShasInput)
  else 0.
Proof.
  unfold excludingShas. destruct (Js.truthy excludingShasInput); [|reflexivity].
  rewrite length_map. apply split_length.
Qed.





(** ** The exclusion filter, again *)

(** X4: filtering is idempotent: filtering the filtered approvals with the
    same exclusion list removes nothing more. *)
Theorem X4_exclusion_filter_is_idempotent (E : list string) (A : list Review) :
  approvalsToProcess E (approvalsToProcess E A) = approvalsToProcess E A.
Proof.
  unfold approvalsToProcess. destruct (0 <? length E)%nat; [|reflexivity].
  now apply filter_filter_weaker.
Qed.

(** X5: an approval is removed only for its commit: with a non-empty
    exclusion list the approvals removed are exactly those whose commit is an
    entry of the list, and the ids left are those of the approvals kept. *)
Theorem X5_exclusion_filter_removes_listed_commits (E : list string) (A : list Review)
    (approval : Review) :
  In approval A ->
  (In approval (approvalsToProcess E A) <->
   forall sha, commit_id approval = Some sha -> ~ In sha E).
Proof.
  intros member. unfold approvalsToProcess. destruct E as [|entry E].
  - split; [intros _ sha _ [] | intros _; exact member].
  - change (0 <? length (entry :: E))%nat with true. cbv iota.
    rewrite filter_In. unfold not_excluded.
    destruct (commit_id approval) as [sha|].
    + destruct (Js.array_includes (entry :: E) sha) eqn:found.
      * apply array_includes_In in found. split.
        -- intros [_ kept]. discriminate.
        -- intros fresh. elim (fresh sha eq_refl found).
      * split.
        -- intros _ sha' [= <-] listed. apply array_includes_In in listed. congruence.
        -- intros _. split; [exact member | reflexivity].
    + split; [intros _ sha; discriminate | intros _; now split].
Qed.

Lemma X5_witness :
  In Sample.r3 (approvalsToProcess ["abc"; "def"] [Sample.r1; Sample.r3; Sample.r4]) <->
  forall sha, commit_id Sample.r3 = Some sha -> ~ In sha ["abc"; "def"].
Proof.
  apply (X5_exclusion_filter_removes_listed_commits ["abc"; "def"]
           [Sample.r1; Sample.r3; Sample.r4] Sample.r3).
  simpl. tauto.
Defined.

(** ** The collector, again *)

Lemma prefix_split (p s : string) :
  String.prefix p s = true -> exists rest, s = p ++ rest.
Proof.
  revert s. induction p as [|c p IH]; intros s.
  - intros _. exists s. reflexivity.
  - destruct s as [|d s]; simpl; [discriminate|].
    destruct (ascii_dec c d) as [<-|]; [|discriminate].
    intros matched. destruct (IH s matched) as [rest ->]. now exists rest.
Qed.

Lemma includes_split (s p : string) :
  Js.includes s p = true <-> exists before rest, s = before ++ p ++ rest.
Proof.
  split.
  - induction s as [|c s IH]; cbn [Js.includes].
    + intros matched. destruct (prefix_split _ _ matched) as [rest ->].
      exists "", rest. reflexivity.
    + intros [matched|later]%orb_true_iff.
      * destruct (prefix_split _ _ matched) as [rest ->]. exists "", rest. reflexivity.
      * destruct (IH later) as [before [rest ->]]. exists (String c before), rest.
        reflexivity.
  - intros [before [rest ->]]. apply includes_app.
Qed.

Lemma collect_pages_returns (env : Env) (prNumber : Z) (fuel : nat) :
  forall (first : nat) (acc approvals : list Review) (issued : list Call),
  collect_pages fuel env prNumber first acc = Some (Ok approvals, issued) ->
  exists k,
    (forall p, first <= p < first + k -> page_has_next env prNumber p = true)
    /\ page_is_last env prNumber (first + k) = true
    /\ issued = page_requests env prNumber first (S k)
    /\ approvals = (acc ++ flat_map (page_approvals env prNumber) (seq first (S k)))%list.
Proof.
  induction fuel as [|fuel IH]; intros first acc approvals issued; [discriminate|].
  destruct (page_has_next env prNumber first) eqn:next.
  - rewrite (collect_pages_next _ _ _ _ _ next).
    destruct (collect_pages fuel env prNumber (S first) _)
      as [[[approvals'|t] issued']|] eqn:rest; try discriminate.
    intros [= <- <-]. destruct (IH _ _ _ _ rest) as (k & nexts & last & -> & ->).
    exists (S k). repeat split.
    + intros p range. destruct (Nat.eq_dec p first) as [->|]; [exact next|].
      apply nexts. lia.
    + replace (first + S k) with (S first + k) by lia. exact last.
    + cbn [seq flat_map]. rewrite <- app_assoc. reflexivity.
  - simpl. unfold page_has_next in next.
    destruct (listReviews env prNumber first) as [result|t] eqn:answer; [|discriminate].
    simpl. rewrite no_next_page_spec, next. simpl. intros [= <- <-].
    exists 0. repeat split.
    + intros p range. lia.
    + rewrite Nat.add_0_r. unfold page_is_last. now rewrite answer, next.
    + unfold page_approvals, page_reviews. rewrite answer. simpl.
      now rewrite app_nil_r.
Qed.

(** X6: whenever the collector returns approvals, it stopped at the first
    page that did not advertise a next page: every page before it was
    answered with a next relation, the requests are those for pages 1 to N,
    and the approvals are those of these pages, in order. *)
Theorem X6_collector_returns_only_at_the_last_page (fuel : nat) (env : Env)
    (prNumber : Z) (approvals : list Review) (issued : list Call) :
  getPullRequestApprovals fuel env prNumber = Some (Ok approvals, issued) ->
  exists N,
    1 <= N <= fuel
    /\ (forall p, 1 <= p < N -> page_has_next env prNumber p = true)
    /\ page_is_last env prNumber N = true
    /\ issued = map (ListReviews (repo_owner env) (repo_repo env) prNumber) (seq 1 N)
    /\ approvals = flat_map (page_approvals env prNumber) (seq 1 N).
Proof.
  intros returned.
  destruct (collect_pages_returns _ _ _ _ _ _ _ returned) as (k & nexts & last & -> & ->).
  exists (S k). repeat split; try assumption; try lia.
  - destruct (le_lt_dec (S k) fuel) as [fits|short]; [exact fits|].
    unfold getPullRequestApprovals in returned.
    rewrite (collect_pages_starved env prNumber fuel k 1 []) in returned;
      [discriminate | exact nexts | lia].
Qed.

Lemma X6_witness :
  exists N,
    1 <= N <= 5
    /\ (forall p, 1 <= p < N -> page_has_next Sample.live 7 p = true)
    /\ page_is_last Sample.live 7 N = true
    /\ [ListReviews "Faire" "demo" 7 1; ListReviews "Faire" "demo" 7 2] =
       map (ListReviews "Faire" "demo" 7) (seq 1 N)
    /\ [Sample.r1; Sample.r3; Sample.r4] = flat_map (page_approvals Sample.live 7) (seq 1 N).
Proof.
  apply (X6_collector_returns_only_at_the_last_page 5 Sample.live 7). reflexivity.
Defined.

(** X7: a rejected page request ends the collection with that rejection,
    unchanged, after the requests for the pages up to that one; the
    approvals gathered from the earlier pages are not returned. *)
Theorem X7_collector_propagates_a_rejection (env : Env) (prNumber : Z) (N : nat)
    (t : Thrown) :
  1 <= N ->
  (forall p, 1 <= p < N -> page_has_next env prNumber p = true) ->
  listReviews env prNumber N = Throw t ->
  forall fuel, N <= fuel ->
  getPullRequestApprovals fuel env prNumber =
  Some (Throw t, map (ListReviews (repo_owner env) (repo_repo env) prNumber) (seq 1 N)).
Proof.
  intros positive nexts rejected fuel enough. destruct N as [|n]; [lia|].
  apply (collect_pages_rejected env prNumber t n 1 []); [|exact rejected|lia].
  intros p range. apply nexts. lia.
Qed.

Lemma X7_witness :
  getPullRequestApprovals 3 Sample.second_page_not_found 7 =
  Some (Throw (ErrorObj "Not Found"),
        [ListReviews "Faire" "demo" 7 1; ListReviews "Faire" "demo" 7 2]).
Proof.
  apply (X7_collector_propagates_a_rejection Sample.second_page_not_found 7 2
           (ErrorObj "Not Found")).
  - lia.
  - intros p range. assert (p = 1) as -> by lia. reflexivity.
  - reflexivity.
  - lia.
Defined.

(** X8: as long as every page advertises a next one the collector keeps
    asking: it returns within no number of iterations. *)
Theorem X8_collector_never_stops_while_next_is_advertised (env : Env) (prNumber : Z) :
  (forall p, 1 <= p -> page_has_next env prNumber p = true) ->
  forall fuel, getPullRequestApprovals fuel env prNumber = None.
Proof.
  intros nexts fuel.
  apply (collect_pages_starved env prNumber fuel fuel 1 []); [|lia].
  intros p range. apply nexts. lia.
Qed.

Lemma X8_witness : getPullRequestApprovals 9 Sample.endless 7 = None.
Proof.
  apply (X8_collector_never_stops_while_next_is_advertised Sample.endless 7).
  intros p range. reflexivity.
Defined.

(** X9: whatever the service answers, pages or rejections, the requests of
    the collector are those for the pages 1, 2, ..., k for some k >= 1: no
    page is skipped or asked for twice, and page 1 is always asked for. *)
Theorem X9_collector_requests_are_consecutive (fuel : nat) (env : Env) (prNumber : Z)
    (result : Res (list Review)) (issued : list Call) :
  getPullRequestApprovals fuel env prNumber = Some (result, issued) ->
  exists k,
    1 <= k
    /\ issued = map (ListReviews (repo_owner env) (repo_repo env) prNumber) (seq 1 k).
Proof.
  intros returned.
  destruct (collect_pages_calls _ _ _ _ _ _ _ returned) as [k ->].
  exists (S k). split; [lia | reflexivity].
Qed.

Lemma X9_witness :
  exists k,
    1 <= k
    /\ [ListReviews "Faire" "demo" 7 1] = map (ListReviews "Faire" "demo" 7) (seq 1 k).
Proof.
  apply (X9_collector_requests_are_consecutive 1 Sample.rejects_with_string 7
           (Throw (NonError "boom"))).
  reflexivity.
Defined.

(** X10: the collector goes on to the next page exactly when the link header
    of the answer contains the text [rel="next"]; a missing or an empty
    header ends the collection. *)
Theorem X10_next_page_test (link : option string) :
  no_next_page link = false <->
  exists before rest, link = Some (before ++ rel_next ++ rest).
Proof.
  rewrite no_next_page_spec, negb_false_iff. unfold advertises_next.
  destruct link as [l|].
  - rewrite includes_split. split.
    + intros [before [rest ->]]. now exists before, rest.
    + intros [before [rest [= ->]]]. now exists before, rest.
  - split; [discriminate | intros [before [rest [=]]]].
Qed.

(** ** The executor, again *)

Lemma first_rejection_None (promises : list Settled) :
  first_rejection promises = None ->
  forall p t, In p promises -> outcome p <> Throw t.
Proof.
  induction promises as [|q rest IH]; intros none p t; [intros []|].
  simpl in none. destruct (outcome q) as [u|tq] eqn:settled.
  - intros [<-|member]; [congruence | exact (IH none p t member)].
  - destruct (first_rejection rest) as [[at' t']|];
      [destruct (settle_at q <=? at')%nat|]; discriminate.
Qed.

Lemma first_rejection_earliest (promises : list Settled) (instant : nat) (t : Thrown) :
  first_rejection promises = Some (instant, t) ->
  forall p t', In p promises -> outcome p = Throw t' -> instant <= settle_at p.
Proof.
  revert instant t. induction promises as [|q rest IH]; intros instant t; [discriminate|].
  simpl. destruct (outcome q) as [u|tq] eqn:settled.
  - intros later p t' [<-|member] rejected; [congruence|].
    exact (IH _ _ later p t' member rejected).
  - destruct (first_rejection rest) as [[at' t'']|] eqn:others.
    + destruct (settle_at q <=? at')%nat eqn:sooner.
      * intros [= <- <-] p t' [<-|member] rejected; [lia|].
        apply Nat.leb_le in sooner.
        specialize (IH _ _ eq_refl p t' member rejected). lia.
      * intros [= <- <-] p t' [<-|member] rejected.
        -- apply Nat.leb_gt in sooner. lia.
        -- exact (IH _ _ eq_refl p t' member rejected).
    + intros [= <- <-] p t' [<-|member] rejected; [lia|].
      elim (first_rejection_None _ others p t' member rejected).
Qed.

Lemma indexed_In {A : Type} (xs : list A) (k : nat) (x : A) :
  In (k, x) (indexed xs) <-> nth_error xs k = Some x.
Proof.
  unfold indexed. enough (shifted : forall first,
    In (k, x) (combine (seq first (length xs)) xs) <->
    first <= k /\ nth_error xs (k - first) = Some x).
  { rewrite shifted, Nat.sub_0_r. split; [tauto | split; [lia | assumption]]. }
  induction xs as [|y xs IH]; intros first; simpl.
  - split; [tauto | intros [_ found]]. destruct (k - first); discriminate.
  - rewrite IH. split.
    + intros [[= -> ->]|[later found]].
      * rewrite Nat.sub_diag. split; [lia | reflexivity].
      * split; [lia|]. replace (k - first) with (S (k - S first)) by lia. exact found.
    + intros [later found]. destruct (k - first) as [|d] eqn:distance.
      * left. injection found as ->. f_equal. lia.
      * right. split; [lia|]. replace (k - S first) with d by lia. exact found.
Qed.

Lemma dismissApprovals_cases (env : Env) (approvalIds : list Z) (prNumber : Z)
    (reason : string) :
  (approvalIds = [] /\
   dismissApprovals env approvalIds prNumber reason = Some (Ok tt, []))
  \/ (approvalIds <> [] /\ exists t,
        Toolkit.getBooleanInput env "dry-run" = Throw t /\
        dismissApprovals env approvalIds prNumber reason = Some (Throw t, []))
  \/ (approvalIds <> [] /\
      Toolkit.getBooleanInput env "dry-run" = Ok true /\
      dismissApprovals env approvalIds prNumber reason =
        Some (createComment env prNumber (dry_run_body approvalIds reason),
              [CreateComment (repo_owner env) (repo_repo env) prNumber
                             (dry_run_body approvalIds reason)]))
  \/ (approvalIds <> [] /\
      Toolkit.getBooleanInput env "dry-run" = Ok false /\
      dismissApprovals env approvalIds prNumber reason =
        Some (promise_all
                (map (fun '(k, approvalId) => dismissReview env k approvalId reason)
                     (indexed approvalIds)),
              dismissals env prNumber reason approvalIds)).
Proof.
  destruct approvalIds as [|approvalId rest]; [left; now split|].
  right. unfold dismissApprovals. rewrite length_zero by discriminate.
  destruct (Toolkit.getBooleanInput env "dry-run") as [[|]|t].
  - right. left. repeat split. discriminate.
  - right. right. repeat split. discriminate.
  - left. split; [discriminate|]. exists t. split; reflexivity.
Qed.

(** X11: in live mode every dismissal is requested, whether or not others
    are rejected. The executor succeeds exactly when all of them are
    fulfilled; otherwise it fails with the rejection of one of its requests,
    the one that was rejected first. *)
Theorem X11_live_mode_fails_with_the_first_rejection (env : Env) (approvalIds : list Z)
    (prNumber : Z) (reason : string) :
  approvalIds <> [] ->
  Toolkit.getBooleanInput env "dry-run" = Ok false ->
  exists result,
    dismissApprovals env approvalIds prNumber reason =
      Some (result,
            map (fun approvalId =>
                   DismissReview (repo_owner env) (repo_repo env) prNumber approvalId reason)
                approvalIds)
    /\ (result = Ok tt <->
        forall k approvalId, nth_error approvalIds k = Some approvalId ->
          outcome (dismissReview env k approvalId reason) = Ok tt)
    /\ (forall t, result = Throw t ->
        exists k approvalId,
          nth_error approvalIds k = Some approvalId
          /\ outcome (dismissReview env k approvalId reason) = Throw t
          /\ forall k' approvalId' t',
               nth_error approvalIds k' = Some approvalId' ->
               outcome (dismissReview env k' approvalId' reason) = Throw t' ->
               settle_at (dismissReview env k approvalId reason)
               <= settle_at (dismissReview env k' approvalId' reason)).
Proof.
  intros some flag.
  destruct (dismissApprovals_cases env approvalIds prNumber reason)
    as [[none _]|[[_ [t [bad _]]]|[[_ [dry _]]|[_ [_ live]]]]]; try congruence.
  eexists. split; [exact live|]. split.
  - rewrite promise_all_fulfilled, Forall_map, Forall_forall. split.
    + intros all k approvalId here. apply indexed_In in here.
      destruct (all _ here) as [[] fulfilled]. exact fulfilled.
    + intros all [k approvalId] here. apply indexed_In in here.
      exists tt. exact (all _ _ here).
  - intros t rejected. unfold promise_all in rejected.
    destruct (first_rejection _) as [[instant t0]|] eqn:first; [|discriminate].
    injection rejected as ->.
    destruct (first_rejection_In _ _ _ first) as (p & member & thrown & at_instant).
    apply in_map_iff in member as ([k approvalId] & <- & here).
    apply indexed_In in here. exists k, approvalId. repeat split; try assumption.
    intros k' approvalId' t' here' thrown'. rewrite at_instant.
    apply (first_rejection_earliest _ _ _ first _ t'); [|exact thrown'].
    apply in_map_iff. exists (k', approvalId'). split; [reflexivity|].
    now apply indexed_In.
Qed.

Lemma X11_witness :
  exists result,
    dismissApprovals Sample.rejects_dismissals [1; 3; 4]%Z 7 "stale" =
      Some (result,
            [DismissReview "Faire" "demo" 7 1 "stale";
             DismissReview "Faire" "demo" 7 3 "stale";
             DismissReview "Faire" "demo" 7 4 "stale"])
    /\ (result = Ok tt <->
        forall k approvalId, nth_error [1; 3; 4]%Z k = Some approvalId ->
          outcome (dismissReview Sample.rejects_dismissals k approvalId "stale") = Ok tt)
    /\ (forall t, result = Throw t ->
        exists k approvalId,
          nth_error [1; 3; 4]%Z k = Some approvalId
          /\ outcome (dismissReview Sample.rejects_dismissals k approvalId "stale") = Throw t
          /\ forall k' approvalId' t',
               nth_error [1; 3; 4]%Z k' = Some approvalId' ->
               outcome (dismissReview Sample.rejects_dismissals k' approvalId' "stale")
                 = Throw t' ->
               settle_at (dismissReview Sample.rejects_dismissals k approvalId "stale")
               <= settle_at (dismissReview Sample.rejects_dismissals k' approvalId' "stale")).
Proof.
  apply (X11_live_mode_fails_with_the_first_rejection Sample.rejects_dismissals
           [1; 3; 4]%Z 7 "stale").
  - discriminate.
  - reflexivity.
Defined.

Example live_mode_reports_the_earliest_rejection :
  dismissApprovals Sample.rejects_dismissals [1; 3; 4]%Z 7 "stale" =
  Some (Throw (ErrorObj "early"),
        [DismissReview "Faire" "demo" 7 1 "stale";
         DismissReview "Faire" "demo" 7 3 "stale";
         DismissReview "Faire" "demo" 7 4 "stale"]).
Proof. reflexivity. Qed.

(** ** The run, again *)

Lemma run_reached (fuel : nat) (env : Env) approvalIds prNumber reason issued result more :
  executor_arguments fuel env = Some (Ok (approvalIds, prNumber, reason), issued) ->
  dismissApprovals env approvalIds prNumber reason = Some (result, more) ->
  run fuel env =
  Some match result with
       | Ok _ => {| calls := issued ++ more; warnings := []; failed := None |}
       | Throw error => handler error (issued ++ more)
       end.
Proof.
  intros reached executed. unfold run. rewrite run_body_split, reached.
  unfold bind. rewrite executed. destruct result; reflexivity.
Qed.

Lemma run_not_reached (fuel : nat) (env : Env) (t : Thrown) (issued : list Call) :
  executor_arguments fuel env = Some (Throw t, issued) ->
  run fuel env = Some (handler t issued).
Proof.
  intros stopped. unfold run. rewrite run_body_split, stopped. reflexivity.
Qed.

Lemma handler_calls (error : Thrown) (issued : list Call) :
  calls (handler error issued) = issued.
Proof. destruct error; reflexivity. Qed.

(** A run that ends either stopped before the executor, or called it. *)
Lemma run_inversion (fuel : nat) (env : Env) (report : Report) :
  run fuel env = Some report ->
  (exists t issued,
     executor_arguments fuel env = Some (Throw t, issued)
     /\ report = handler t issued)
  \/ (exists approvalIds prNumber reason issued result more,
        executor_arguments fuel env = Some (Ok (approvalIds, prNumber, reason), issued)
        /\ dismissApprovals env approvalIds prNumber reason = Some (result, more)
        /\ calls report = (issued ++ more)%list
        /\ failed report = reported result).
Proof.
  intros ended.
  destruct (executor_arguments fuel env)
    as [[[[[approvalIds prNumber] reason]|t] issued]|] eqn:reached.
  - right.
    destruct (dismissApprovals_cases env approvalIds prNumber reason)
      as [[_ executed]|[[_ [t [_ executed]]]|[[_ [_ executed]]|[_ [_ executed]]]]];
      rewrite (run_reached _ _ _ _ _ _ _ _ reached executed) in ended;
      injection ended as <-;
      do 6 eexists; (split; [reflexivity|]); (split; [exact executed|]).
    + split; reflexivity.
    + split; [apply handler_calls | destruct t; reflexivity].
    + destruct (createComment env prNumber _) as [[]|[message|value]];
        split; reflexivity.
    + destruct (promise_all _) as [[]|[message|value]]; split; reflexivity.
  - left. rewrite (run_not_reached _ _ _ _ reached) in ended.
    injection ended as <-. now exists t, issued.
  - unfold run in ended. rewrite run_body_split, reached in ended. discriminate.
Qed.

Lemma dismissals_no_list_request (env : Env) (prNumber : Z) (reason : string)
    (ids : list Z) :
  filter is_list_request (dismissals env prNumber reason ids) = []
  /\ filter is_comment (dismissals env prNumber reason ids) = [].
Proof. induction ids as [|approvalId ids IH]; simpl; [now split | exact IH]. Qed.

(** X12: the requests of a run are the page requests of the collector
    followed by those of the executor, and the executor issues either
    nothing, or one comment (the dry-run flag being set), or dismissals only
    (the flag being false). No dismissal or comment precedes a page request:
    the approvals are collected in full before any of them is acted on. *)
Theorem X12_run_collects_before_it_acts (fuel : nat) (env : Env) (report : Report) :
  run fuel env = Some report ->
  exists pages rest,
    calls report = (pages ++ rest)%list
    /\ forallb is_list_request pages = true
    /\ (rest = []
        \/ (Toolkit.getBooleanInput env "dry-run" = Ok true /\
            exists prNumber body,
              rest = [CreateComment (repo_owner env) (repo_repo env) prNumber body])
        \/ (Toolkit.getBooleanInput env "dry-run" = Ok false /\
            exists prNumber reason approvalIds,
              approvalIds <> [] /\
              rest = map (fun approvalId =>
                            DismissReview (repo_owner env) (repo_repo env) prNumber
                                          approvalId reason)
                         approvalIds)).
Proof.
  intros ended.
  destruct (run_inversion _ _ _ ended)
    as [(t & issued & stopped & ->)
       |(approvalIds & prNumber & reason & issued & result & more
         & reached & executed & requests & _)].
  - exists issued, []. rewrite handler_calls, app_nil_r.
    split; [reflexivity|]. split; [|now left].
    exact (executor_arguments_calls _ _ _ _ stopped).
  - exists issued, more. split; [exact requests|].
    split; [exact (executor_arguments_calls _ _ _ _ reached)|].
    destruct (dismissApprovals_cases env approvalIds prNumber reason)
      as [[_ known]|[[_ [t [_ known]]]|[[_ [dry known]]|[some [live known]]]]];
      rewrite known in executed; injection executed as _ <-.
    + now left.
    + now left.
    + right. left. split; [exact dry|]. eexists _, _. reflexivity.
    + right. right. split; [exact live|]. now exists prNumber, reason, approvalIds.
Qed.

Lemma X12_witness :
  exists pages rest,
    [ListReviews "Faire" "demo" 7 1; ListReviews "Faire" "demo" 7 2;
     DismissReview "Faire" "demo" 7 3 "stale"] = (pages ++ rest)%list
    /\ forallb is_list_request pages = true
    /\ (rest = []
        \/ (Toolkit.getBooleanInput Sample.live "dry-run" = Ok true /\
            exists prNumber body, rest = [CreateComment "Faire" "demo" prNumber body])
        \/ (Toolkit.getBooleanInput Sample.live "dry-run" = Ok false /\
            exists prNumber reason approvalIds,
              approvalIds <> [] /\
              rest = map (fun approvalId =>
                            DismissReview "Faire" "demo" prNumber approvalId reason)
                         approvalIds)).
Proof.
  apply (X12_run_collects_before_it_acts 5 Sample.live
           {| calls := [ListReviews "Faire" "demo" 7 1; ListReviews "Faire" "demo" 7 2;
                        DismissReview "Faire" "demo" 7 3 "stale"];
              warnings := []; failed := None |}).
  vm_compute. reflexivity.
Defined.


Lemma list_requests_only (issued : list Call) :
  forallb is_list_request issued = true ->
  filter is_dismissal issued = [] /\ filter is_comment issued = []
  /\ forall c, In c issued -> is_list_request c = true.
Proof.
  intros only. rewrite forallb_forall in only. repeat split.
  - induction issued as [|c issued IH]; [reflexivity|]. simpl.
    pose proof (only c (or_introl eq_refl)) as listed.
    destruct c; try discriminate. apply IH. intros d member. apply only. now right.
  - induction issued as [|c issued IH]; [reflexivity|]. simpl.
    pose proof (only c (or_introl eq_refl)) as listed.
    destruct c; try discriminate. apply IH. intros d member. apply only. now right.
  - exact only.
Qed.



(** X14: with the dry-run flag set no run requests a dismissal, and it
    creates at most one comment. *)
Theorem X14_dry_run_never_dismisses (fuel : nat) (env : Env) (report : Report) :
  Toolkit.getBooleanInput env "dry-run" = Ok true ->
  run fuel env = Some report ->
  filter is_dismissal (calls report) = []
  /\ length (filter is_comment (calls report)) <= 1.
Proof.
  intros dry ended.
  destruct (run_inversion _ _ _ ended)
    as [(t & issued & stopped & ->)
       |(approvalIds & prNumber & reason & issued & result & more
         & reached & executed & -> & _)].
  - rewrite handler_calls.
    apply executor_arguments_calls, list_requests_only in stopped as (-> & -> & _).
    split; [reflexivity | simpl; lia].
  - apply executor_arguments_calls, list_requests_only in reached as (quiet & mute & _).
    rewrite !filter_app, quiet, mute.
    destruct (dismissApprovals_cases env approvalIds prNumber reason)
      as [[_ known]|[[_ [t [_ known]]]|[[_ [_ known]]|[_ [live _]]]]];
      [| | |congruence];
      rewrite known in executed; injection executed as _ <-;
      (split; [reflexivity | simpl; lia]).
Qed.

Lemma X14_witness :
  filter is_dismissal
    [ListReviews "Faire" "demo" 7 1; ListReviews "Faire" "demo" 7 2;
     CreateComment "Faire" "demo" 7 (dry_run_body [1; 3; 4]%Z "stale")] = []
  /\ length (filter is_comment
      [ListReviews "Faire" "demo" 7 1; ListReviews "Faire" "demo" 7 2;
       CreateComment "Faire" "demo" 7 (dry_run_body [1; 3; 4]%Z "stale")]) <= 1.
Proof.
  apply (X14_dry_run_never_dismisses 5 Sample.dry
           {| calls := [ListReviews "Faire" "demo" 7 1; ListReviews "Faire" "demo" 7 2;
                        CreateComment "Faire" "demo" 7 (dry_run_body [1; 3; 4]%Z "stale")];
              warnings := []; failed := None |}).
  - reflexivity.
  - vm_compute. reflexivity.
Defined.

(** X15: when a page request is rejected with an [Error], the run fails
    with the message of that error, unchanged, after the page requests up to
    that page and without any request of the executor; it warns about
    permissions exactly when the message contains [Not Found]. *)
Theorem X15_run_reports_a_rejected_page (env : Env) (token : string) (pr : PullRequest)
    (N : nat) (message : string) :
  Toolkit.getInput env "github-token" true = Ok token ->
  Toolkit.getOctokit token = Ok tt ->
  payload_pull_request env = Some pr ->
  1 <= N ->
  (forall p, 1 <= p < N -> page_has_next env (number pr) p = true) ->
  listReviews env (number pr) N = Throw (ErrorObj message) ->
  forall fuel, N <= fuel ->
  run fuel env =
  Some {| calls := map (ListReviews (repo_owner env) (repo_repo env) (number pr)) (seq 1 N);
          warnings := if Js.includes message "Not Found"
                      then ["Did you set the correct permissions?"] else [];
          failed := Some message |}.
Proof.
  intros credential client present positive nexts rejected fuel enough.
  destruct N as [|n]; [lia|].
  assert (collected : getPullRequestApprovals fuel env (number pr) =
                      Some (Throw (ErrorObj message), page_requests env (number pr) 1 (S n))).
  { apply (collect_pages_rejected env (number pr) _ n 1 []); [|exact rejected|lia].
    intros p range. apply nexts. lia. }
  unfold run, run_body.
  rewrite credential, bind_lift_Ok, present, client, bind_lift_Ok, collected.
  reflexivity.
Qed.

Lemma X15_witness :
  run 3 Sample.second_page_not_found =
  Some {| calls := [ListReviews "Faire" "demo" 7 1; ListReviews "Faire" "demo" 7 2];
          warnings := ["Did you set the correct permissions?"];
          failed := Some "Not Found" |}.
Proof.
  apply (X15_run_reports_a_rejected_page Sample.second_page_not_found "t0k"
           {| number := 7 |} 2 "Not Found").
  - reflexivity.
  - reflexivity.
  - reflexivity.
  - lia.
  - intros p range. assert (p = 1) as -> by lia. reflexivity.
  - reflexivity.
  - lia.
Defined.








(** X19: the hint about permissions is written only together with a
    failure: a run that warns has failed with a message that contains
    [Not Found], and it writes the hint once. *)
Theorem X19_warning_only_with_a_Not_Found_failure (fuel : nat) (env : Env)
    (report : Report) :
  run fuel env = Some report ->
  warnings report = []
  \/ (warnings report = ["Did you set the correct permissions?"] /\
      exists message,
        failed report = Some message /\ Js.includes message "Not Found" = true).
Proof.
  unfold run. destruct (run_body fuel env) as [[[[]|[message|value]] issued]|];
    [| | |discriminate]; intros [= <-]; simpl.
  - now left.
  - destruct (Js.includes message "Not Found") eqn:hint.
    + right. split; [reflexivity|]. now exists message.
    + now left.
  - now left.
Qed.

Lemma X19_witness :
  ["Did you set the correct permissions?"] = @nil string
  \/ (["Did you set the correct permissions?"] = ["Did you set the correct permissions?"] /\
      exists message,
        Some "Not Found" = Some message /\ Js.includes message "Not Found" = true).
Proof.
  apply (X19_warning_only_with_a_Not_Found_failure 3 Sample.second_page_not_found
           {| calls := [ListReviews "Faire" "demo" 7 1; ListReviews "Faire" "demo" 7 2];
              warnings := ["Did you set the correct permissions?"];
              failed := Some "Not Found" |}).
  reflexivity.
Defined.
